(** * Spring-mass-damper notebook (PINN_lab): model and properties

    The repository is one Jupyter notebook,
    [projects/Spring_Mass_Damper/notebooks/Untitled.ipynb].  Its code
    cells are embedded below as functions over the kernel's global
    namespace; the DeepXDE constructors they call are external and are
    modelled as records holding the arguments they are given.

    Numbers: Python floats are idealised as real numbers [R], Python
    integer literals are [Z].  A framework tensor that takes part in
    automatic differentiation carries, next to each entry, the
    derivative of that entry with respect to the network input (a dual
    number, as in forward-mode differentiation). *)

From Stdlib Require Import Reals Lra ZArith.
From stdpp Require Import gmap strings list.

(** ** Exceptions and results *)

Inductive error : Type :=
| NameError (name : string)
| SyntaxError
| TypeError
| AttributeError
| ValueError.

Inductive result (A : Type) : Type :=
| Ok (a : A)
| Err (e : error).
Arguments Ok {A} a.
Arguments Err {A} e.

Definition bind {A B : Type} (r : result A) (f : A -> result B) : result B :=
  match r with
  | Ok a => f a
  | Err e => Err e
  end.

Definition rmap {A B : Type} (f : A -> B) (r : result A) : result B :=
  bind r (fun a => Ok (f a)).

Declare Scope py_scope.
Delimit Scope py_scope with py.
Notation "'let*' x ':=' r 'in' k" := (bind r (fun x => k))
  (at level 10, x name, r at level 100, k at level 200) : py_scope.
Open Scope py_scope.

(** ** Tensors *)

(** An entry of a differentiable tensor: its value and its derivative
    with respect to the network input [t]. *)
Record dual : Type := Dual { primal : R; tangent : R }.

(** Plain two-dimensional arrays (rows of entries) and differentiable
    two-dimensional tensors.  A batch of [n] sampled times is a tensor
    of shape (n, 1); the network output for it has shape (n, 2). *)
Definition matrix : Type := list (list R).
Definition tensor : Type := list (list dual).

Definition values (a : tensor) : matrix := map (map primal) a.

(** What automatic differentiation with respect to the network input
    returns for a tensor: the derivative of every entry. *)
Definition derivs (a : tensor) : matrix := map (map tangent) a.

(** [a[:, lo:hi]] for non-negative bounds; a slice never raises, it is
    cut to the columns that exist. *)
Definition slice_cols (lo hi : nat) (a : tensor) : tensor :=
  map (fun row => take (hi - lo) (drop lo row)) a.

Definition dadd (p q : dual) : dual :=
  Dual (primal p + primal q) (tangent p + tangent q).
Definition dsub (p q : dual) : dual :=
  Dual (primal p - primal q) (tangent p - tangent q).
Definition dscale (s : R) (p : dual) : dual :=
  Dual (s * primal p) (s * tangent p).
Definition ddiv (p : dual) (s : R) : dual :=
  Dual (primal p / s) (tangent p / s).

(** A scalar function of time with its derivative, applied to an entry
    (chain rule). *)
Definition dapply (f f' : R -> R) (p : dual) : dual :=
  Dual (f (primal p)) (f' (primal p) * tangent p).

(** Python scalar times tensor, tensor divided by Python scalar.  (For a
    zero divisor the framework yields infinities or NaN, which [R] does
    not have; the properties of the quotient below assume a non-zero
    divisor.) *)
Definition scale (s : R) (a : tensor) : tensor := map (map (dscale s)) a.
Definition div_scalar (a : tensor) (s : R) : tensor :=
  map (map (fun p => ddiv p s)) a.
Definition tapply (f f' : R -> R) (a : tensor) : tensor :=
  map (map (dapply f f')) a.

(** Elementwise binary operations follow the broadcasting rule: along
    an axis the two lengths must agree, or one of them is 1 and is
    stretched; otherwise the operation raises. *)
Fixpoint zip_res {A : Type} (f : A -> A -> result A) (a b : list A)
  : result (list A) :=
  match a, b with
  | [], [] => Ok []
  | x :: a', y :: b' =>
      let* r := f x y in
      let* rs := zip_res f a' b' in
      Ok (r :: rs)
  | _, _ => Err ValueError
  end.

Definition broadcast {A : Type} (f : A -> A -> result A) (a b : list A)
  : result (list A) :=
  match a, b with
  | [x], _ => zip_res f (repeat x (length b)) b
  | _, [y] => zip_res f a (repeat y (length a))
  | _, _ => zip_res f a b
  end.

Definition elementwise (f : dual -> dual -> dual) (a b : tensor)
  : result tensor :=
  broadcast (broadcast (fun p q => Ok (f p q))) a b.

Definition tadd : tensor -> tensor -> result tensor := elementwise dadd.
Definition tsub : tensor -> tensor -> result tensor := elementwise dsub.

(** ** Values of the kernel's global namespace *)

(** [dde.geometry.TimeDomain(t0, t1)]. *)
Record TimeDomain : Type := { t0 : R; t1 : R }.

(** [dde.icbc.IC(geom, func, on_initial, component=...)]. *)
Record IC : Type := {
  ic_geom : TimeDomain;
  ic_func : matrix -> Z;
  ic_on_initial : list R -> bool -> bool;
  ic_component : Z
}.

(** Functions that the notebook defines with [def]. *)
Inductive pyfun : Type := ode_system_fn.

(** [dde.data.PDE(geom, pde, bcs, num_domain=..., num_boundary=...)]. *)
Record PDE : Type := {
  pde_geom : TimeDomain;
  pde_fn : pyfun;
  pde_bcs : list IC;
  num_domain : Z;
  num_boundary : Z
}.

(** [dde.nn.FNN(layer_sizes, activation, kernel_initializer)]. *)
Record FNN : Type := {
  layer_sizes : list Z;
  activation : string;
  kernel_initializer : string
}.

Inductive value : Type :=
| VInt (z : Z)
| VFloat (r : R)
| VForce (f f' : R -> R)   (* a scalar function of time and its derivative,
                              applied to every entry of its argument *)
| VFun (f : pyfun)
| VModule                  (* the DeepXDE module, [dde] *)
| VGeom (g : TimeDomain)
| VIC (i : IC)
| VData (d : PDE)
| VNet (n : FNN)
| VModel (d : PDE) (n : FNN)
| VOpaque (what : string). (* an object returned by the framework *)

Abbreviation namespace := (gmap string value).

(** Loading a global name raises [NameError] when it is unbound. *)
Definition load (g : namespace) (name : string) : result value :=
  match g !! name with
  | Some v => Ok v
  | None => Err (NameError name)
  end.

(** A global used in arithmetic with a tensor must be a number. *)
Definition as_scalar (v : value) : result R :=
  match v with
  | VInt z => Ok (IZR z)
  | VFloat r => Ok r
  | _ => Err TypeError
  end.

Definition load_scalar (g : namespace) (name : string) : result R :=
  let* v := load g name in as_scalar v.

(** Calling a global with one tensor argument. *)
Definition call1 (v : value) (a : tensor) : result tensor :=
  match v with
  | VForce f f' => Ok (tapply f f' a)
  | _ => Err TypeError
  end.

(** ** The residual function of the notebook

<<
def ode_system(t, y):
    x, v = y[:, 0:1], y[:, 1:2]
    dx_dt = v
    dv_dt = (-c * v - k * x + F(t)) / m
    return [dx_dt, dv_dt]
>>
    [c], [k], [F] and [m] are globals, looked up when the body runs, in
    the order in which the expression evaluates them. *)
Definition ode_system (g : namespace) (t y : tensor) : result (list tensor) :=
  let x := slice_cols 0 1 y in
  let v := slice_cols 1 2 y in
  let dx_dt := v in
  let* c := load_scalar g "c" in
  let cv := scale (- c) v in
  let* k := load_scalar g "k" in
  let kx := scale k x in
  let* lhs := tsub cv kx in
  let* F := load g "F" in
  let* Ft := call1 F t in
  let* num := tadd lhs Ft in
  let* m := load_scalar g "m" in
  let dv_dt := div_scalar num m in
  Ok [dx_dt; dv_dt].

(** ** The code cells of the notebook *)

(** A statement of a cell.  The right-hand side of an assignment is an
    expression evaluated in the namespace; [None] is an assignment
    whose right-hand side is missing from the source text. *)
Inductive stmt : Type :=
| Def (name : string) (f : pyfun)
| Assign (target : string) (rhs : option (namespace -> result value))
| AssignPair (target1 target2 : string)
    (rhs : namespace -> result (value * value))
| Expr (e : namespace -> result unit).

Definition cell : Type := list stmt.

(** Attribute access on the framework module, [dde.xxx]. *)
Definition load_module (g : namespace) (name : string) : result unit :=
  let* v := load g name in
  match v with
  | VModule => Ok tt
  | _ => Err AttributeError
  end.

(** Arguments handed to the framework constructors; the records hold
    values of one kind, another kind is rejected. *)
Definition load_geom (g : namespace) (name : string) : result TimeDomain :=
  let* v := load g name in
  match v with VGeom d => Ok d | _ => Err TypeError end.
Definition load_ic (g : namespace) (name : string) : result IC :=
  let* v := load g name in
  match v with VIC i => Ok i | _ => Err TypeError end.
Definition load_fun (g : namespace) (name : string) : result pyfun :=
  let* v := load g name in
  match v with VFun f => Ok f | _ => Err TypeError end.
Definition load_data (g : namespace) (name : string) : result PDE :=
  let* v := load g name in
  match v with VData d => Ok d | _ => Err TypeError end.
Definition load_net (g : namespace) (name : string) : result FNN :=
  let* v := load g name in
  match v with VNet n => Ok n | _ => Err TypeError end.
Definition load_model (g : namespace) (name : string) : result (PDE * FNN) :=
  let* v := load g name in
  match v with VModel d n => Ok (d, n) | _ => Err AttributeError end.

(** Python list [+] and [*]. *)
Definition list_add {A : Type} (l1 l2 : list A) : list A := l1 ++ l2.
Definition list_mul {A : Type} (l : list A) (n : Z) : list A :=
  concat (repeat l (Z.to_nat n)).

(** The code cell under the heading "DeepXDE" is empty. *)
Definition cell_deepxde : cell := [].

(** [def ode_system(t, y): ...] *)
Definition cell_ode : cell := [Def "ode_system" ode_system_fn].

(**
<<
T =
geom = dde.geometry.TimeDomain(0, T)
>> *)
Definition cell_geometry : cell :=
  [ Assign "T" None;
    Assign "geom" (Some (fun g =>
      let* _ := load_module g "dde" in
      let* T := load_scalar g "T" in
      Ok (VGeom {| t0 := 0; t1 := T |}))) ].

(**
<<
ic1 = dde.icbc.IC(geom, lambda t: 0, lambda _, on_initial: on_initial, component=0)
ic2 = dde.icbc.IC(geom, lambda t: 1, lambda _, on_initial: on_initial, component=1)
>> *)
Definition cell_ic : cell :=
  [ Assign "ic1" (Some (fun g =>
      let* _ := load_module g "dde" in
      let* geom := load_geom g "geom" in
      Ok (VIC {| ic_geom := geom;
                 ic_func := fun t => 0%Z;
                 ic_on_initial := fun _ on_initial => on_initial;
                 ic_component := 0 |})));
    Assign "ic2" (Some (fun g =>
      let* _ := load_module g "dde" in
      let* geom := load_geom g "geom" in
      Ok (VIC {| ic_geom := geom;
                 ic_func := fun t => 1%Z;
                 ic_on_initial := fun _ on_initial => on_initial;
                 ic_component := 1 |}))) ].

(** [data = dde.data.PDE(geom, ode_system, [ic1, ic2], num_domain=1000, num_boundary=2)] *)
Definition cell_data : cell :=
  [ Assign "data" (Some (fun g =>
      let* _ := load_module g "dde" in
      let* geom := load_geom g "geom" in
      let* pde := load_fun g "ode_system" in
      let* ic1 := load_ic g "ic1" in
      let* ic2 := load_ic g "ic2" in
      Ok (VData {| pde_geom := geom;
                   pde_fn := pde;
                   pde_bcs := [ic1; ic2];
                   num_domain := 1000;
                   num_boundary := 2 |}))) ].

(** [net = dde.nn.FNN([1] + [50] * 3 + [2], "tanh", "Glorot uniform")] *)
Definition cell_net : cell :=
  [ Assign "net" (Some (fun g =>
      let* _ := load_module g "dde" in
      Ok (VNet {| layer_sizes :=
                    list_add (list_add [1%Z] (list_mul [50%Z] 3)) [2%Z];
                  activation := "tanh";
                  kernel_initializer := "Glorot uniform" |}))) ].

(**
<<
model = dde.Model(data, net)
model.compile("adam", lr=0.001, metrics=["l2 relative error"])
losshistory, train_state = model.train(epochs=10000)
>>
    Compilation and training happen inside the framework; only the
    names that the cell binds are modelled. *)
Definition cell_train : cell :=
  [ Assign "model" (Some (fun g =>
      let* _ := load_module g "dde" in
      let* data := load_data g "data" in
      let* net := load_net g "net" in
      Ok (VModel data net)));
    Expr (fun g => let* _ := load_model g "model" in Ok tt);
    AssignPair "losshistory" "train_state" (fun g =>
      let* _ := load_model g "model" in
      Ok (VOpaque "LossHistory", VOpaque "TrainState")) ].

(** [dde.saveplot(losshistory, train_state, issave=True, isplot=True)] *)
Definition cell_plot : cell :=
  [ Expr (fun g =>
      let* _ := load_module g "dde" in
      let* _ := load g "losshistory" in
      let* _ := load g "train_state" in
      Ok tt) ].

Definition notebook : list cell :=
  [ cell_deepxde; cell_ode; cell_geometry; cell_ic; cell_data; cell_net;
    cell_train; cell_plot ].

(** ** Running cells *)

(** A cell is compiled as a whole before any of it runs. *)
Definition well_formed (s : stmt) : bool :=
  match s with
  | Assign _ None => false
  | _ => true
  end.

Definition compiles (c : cell) : bool := forallb well_formed c.

Definition exec_stmt (s : stmt) (g : namespace) : result namespace :=
  match s with
  | Def name f => Ok (<[name := VFun f]> g)
  | Assign x (Some e) => let* v := e g in Ok (<[x := v]> g)
  | Assign x None => Err SyntaxError
  | AssignPair x y e =>
      let* vw := e g in Ok (<[y := vw.2]> (<[x := vw.1]> g))
  | Expr e => let* _ := e g in Ok g
  end.

(** Statements run in order; an exception stops the cell and keeps the
    bindings made so far. *)
Fixpoint exec (c : cell) (g : namespace) : namespace * option error :=
  match c with
  | [] => (g, None)
  | s :: c' =>
      match exec_stmt s g with
      | Ok g' => exec c' g'
      | Err e => (g, Some e)
      end
  end.

Definition run_cell (c : cell) (g : namespace) : namespace * option error :=
  if compiles c then exec c g else (g, Some SyntaxError).

(** "Run All": cells in order, stopping at the first one that raises. *)
Fixpoint run_all (cs : list cell) (g : namespace) : namespace * option error :=
  match cs with
  | [] => (g, None)
  | c :: cs' =>
      match run_cell c g with
      | (g', None) => run_all cs' g'
      | (g', Some e) => (g', Some e)
      end
  end.

(** The namespaces a kernel can be in: a fresh kernel, then cells of
    the notebook run in any order, any number of times. *)
Inductive reachable : namespace -> Prop :=
| reach_fresh : reachable ∅
| reach_run (g : namespace) (c : cell) :
    reachable g -> c ∈ notebook -> reachable (run_cell c g).1.

(** The names a cell can bind. *)
Definition targets (s : stmt) : list string :=
  match s with
  | Def name _ => [name]
  | Assign x _ => [x]
  | AssignPair x y _ => [x; y]
  | Expr _ => []
  end.

Definition cell_targets (c : cell) : list string := concat (map targets c).

(** A cell that does not compile binds nothing. *)
Definition cell_binds (c : cell) : list string :=
  if compiles c then cell_targets c else [].

Definition bound_names : list string := concat (map cell_binds notebook).

(** ** Batches of samples *)

(** One collocation point: the time, and the two network outputs at
    that time, each with its derivative with respect to time. *)
Record sample : Type := { s_t : dual; s_x : dual; s_v : dual }.

(** The arguments that the framework passes to [ode_system] for a batch:
    the times, of shape (n, 1), and the outputs, of shape (n, 2). *)
Definition times (l : list sample) : tensor := map (fun s => [s_t s]) l.
Definition outputs (l : list sample) : tensor :=
  map (fun s => [s_x s; s_v s]) l.

(** The residuals as the specification words them:
    r1 = dx/dt - v and r2 = m dv/dt + c v + k x - F(t). *)
Definition residual_spec (m c k : R) (F : R -> R) (l : list sample)
  : list matrix :=
  [ map (fun s => [tangent (s_x s) - primal (s_v s)]%R) l;
    map (fun s => [m * tangent (s_v s) + c * primal (s_v s)
                   + k * primal (s_x s) - F (primal (s_t s))]%R) l ].

(** The governing equation m x'' + c x' + k x = F(t) at a sample, on
    the outputs (x, v) of the network: v is the velocity x', and the
    momentum balance holds. *)
Definition governing_eq (m c k : R) (F : R -> R) (s : sample) : Prop :=
  tangent (s_x s) = primal (s_v s) /\
  (m * tangent (s_v s) + c * primal (s_v s) + k * primal (s_x s)
   = F (primal (s_t s)))%R.

(** Every entry of every returned array is zero. *)
Definition all_zero (out : list matrix) : Prop :=
  Forall (Forall (Forall (fun r => r = 0%R))) out.

(** What [ode_system] computes for one sample as its second entry. *)
Definition accel (m c k : R) (f f' : R -> R) (s : sample) : dual :=
  ddiv (dadd (dsub (dscale (- c) (s_v s)) (dscale k (s_x s)))
             (dapply f f' (s_t s))) m.

(** The points of [X] to which the framework applies a constraint: it
    calls the constraint's predicate on each point together with the
    geometry's own mark for that point. *)
Definition ic_filter (mark : list R -> bool) (i : IC) (X : matrix) : matrix :=
  List.filter (fun x => ic_on_initial i x (mark x)) X.

(** A mark that a geometry may give: the point is the time [t]. *)
Definition at_time (t : R) (x : list R) : bool :=
  match x with
  | [r] => if Req_dec_T r t then true else false
  | _ => false
  end.

(** ** Example namespaces *)

(** The unforced oscillator m = 1, c = 1/5, k = 1, F = 0. *)
Definition oscillator : namespace :=
  <["m" := VFloat 1]> (<["F" := VForce (fun _ => 0%R) (fun _ => 0%R)]>
  (<["k" := VFloat 1]> (<["c" := VFloat (1 / 5)]> ∅))).

(** A kernel in which the framework is imported and a time domain bound. *)
Definition with_geom : namespace :=
  <["geom" := VGeom {| t0 := 0; t1 := 20 |}]> (<["dde" := VModule]> ∅).

(** The initial state of the notebook, x(0) = 0 and v(0) = 1, moving as
    the oscillator does: x' = 1, v' = -1/5. *)
Definition s_initial : sample :=
  {| s_t := Dual 0 1; s_x := Dual 0 1; s_v := Dual 1 (- (1 / 5)) |}.

(** At rest in value, but with displacement changing at rate 1. *)
Definition s_moving : sample :=
  {| s_t := Dual 0 1; s_x := Dual 0 1; s_v := Dual 0 0 |}.

(** The same values as [s_initial], with other derivatives. *)
Definition s_steep : sample :=
  {| s_t := Dual 0 1; s_x := Dual 0 7; s_v := Dual 1 3 |}.

(** [with_geom] after the cells that define [ode_system] and the two
    initial conditions. *)
Definition with_ics : namespace :=
  (run_cell cell_ic (run_cell cell_ode with_geom).1).1.

(** A kernel in which only the framework has been imported. *)
Definition imported : namespace := <["dde" := VModule]> ∅.

(** The namespaces a kernel can be in when it starts from [g0] rather
    than fresh: cells of the notebook run in any order, any number of
    times. *)
Inductive runs_from (g0 : namespace) : namespace -> Prop :=
| runs_start : runs_from g0 g0
| runs_step (g : namespace) (c : cell) :
    runs_from g0 g -> c ∈ notebook -> runs_from g0 (run_cell c g).1.

(** The names downstream of the time horizon: the geometry, what is
    built from it, and what is built from that. *)
Definition downstream : list string :=
  [ "T"; "geom"; "ic1"; "ic2"; "data"; "model"; "losshistory";
    "train_state" ].

Definition unbound_in (g : namespace) (names : list string) : Prop :=
  forall n, n ∈ names -> g !! n = None.

(** ** Results and broadcasting *)

(** A name is not in an explicit list of other names. *)
Ltac not_bound :=
  let H := fresh "H" in
  intros H;
  repeat (apply elem_of_cons in H as [H|H]; [discriminate H|]);
  apply elem_of_nil in H; exact H.

Lemma rmap_Ok_inv {A B : Type} (h : A -> B) (r : result A) (b : B) :
  rmap h r = Ok b -> exists a, r = Ok a /\ h a = b.
Proof.
  destruct r as [a|e]; cbn; intros H; [|discriminate].
  exists a. split; [reflexivity | congruence].
Qed.

Lemma rmap_Err_inv {A B : Type} (h : A -> B) (r : result A) (e : error) :
  rmap h r = Err e -> r = Err e.
Proof. destruct r; cbn; congruence. Qed.

Lemma zip_res_map {A B : Type} (h : A -> B)
    (f : A -> A -> result A) (fB : B -> B -> result B) :
  (forall x y, rmap h (f x y) = fB (h x) (h y)) ->
  forall a b,
    rmap (map h) (zip_res f a b) = zip_res fB (map h a) (map h b).
Proof.
  intros H a. induction a as [|x a IH]; intros [|y b]; cbn; try reflexivity.
  rewrite <- H, <- IH.
  destruct (f x y) as [r|e]; cbn; [|reflexivity].
  destruct (zip_res f a b) as [rs|e]; reflexivity.
Qed.

Lemma broadcast_map {A B : Type} (h : A -> B)
    (f : A -> A -> result A) (fB : B -> B -> result B) :
  (forall x y, rmap h (f x y) = fB (h x) (h y)) ->
  forall a b,
    rmap (map h) (broadcast f a b) = broadcast fB (map h a) (map h b).
Proof.
  intros H a b. unfold broadcast.
  destruct a as [|x [|x' a]]; destruct b as [|y [|y' b]];
    cbn [map length];
    rewrite ?(zip_res_map h f fB H); cbn [map repeat];
    rewrite ?map_repeat, ?length_map; reflexivity.
Qed.

Lemma broadcast_same_length {A : Type} (f : A -> A -> result A) a b :
  length a = length b -> broadcast f a b = zip_res f a b.
Proof.
  destruct a as [|x [|x' a]]; destruct b as [|y [|y' b]];
    cbn; intros H; try discriminate; reflexivity.
Qed.

Lemma zip_res_columns {A S : Type} (f : A -> A -> result A)
    (p q r : S -> A) :
  (forall s, f (p s) (q s) = Ok (r s)) ->
  forall l, zip_res f (map p l) (map q l) = Ok (map r l).
Proof.
  intros H l. induction l as [|s l IH]; cbn; [reflexivity|].
  rewrite H, IH. reflexivity.
Qed.

Lemma broadcast_columns {A S : Type} (f : A -> A -> result A)
    (p q r : S -> A) :
  (forall s, f (p s) (q s) = Ok (r s)) ->
  forall l, broadcast f (map p l) (map q l) = Ok (map r l).
Proof.
  intros H l. rewrite broadcast_same_length.
  - apply zip_res_columns, H.
  - rewrite !length_map. reflexivity.
Qed.

(** An elementwise operation on two one-column tensors built from the
    same batch. *)
Lemma elementwise_columns {S : Type} (f : dual -> dual -> dual)
    (p q : S -> dual) (l : list S) :
  elementwise f (map (fun s => [p s]) l) (map (fun s => [q s]) l)
  = Ok (map (fun s => [f (p s) (q s)]) l).
Proof. unfold elementwise. apply broadcast_columns. reflexivity. Qed.

(** The values of an elementwise result depend on the values of the
    operands alone. *)
Lemma elementwise_values (f : dual -> dual -> dual) (fR : R -> R -> R) :
  (forall p q, primal (f p q) = fR (primal p) (primal q)) ->
  forall a b,
    rmap values (elementwise f a b)
    = broadcast (broadcast (fun p q => Ok (fR p q))) (values a) (values b).
Proof.
  intros H a b. unfold elementwise, values.
  apply broadcast_map. intros x y.
  apply broadcast_map. intros p q. cbn. rewrite H. reflexivity.
Qed.

(** ** What [ode_system] returns *)

Lemma slice_x (l : list sample) :
  slice_cols 0 1 (outputs l) = map (fun s => [s_x s]) l.
Proof. unfold slice_cols, outputs. rewrite map_map. reflexivity. Qed.

Lemma slice_v (l : list sample) :
  slice_cols 1 2 (outputs l) = map (fun s => [s_v s]) l.
Proof. unfold slice_cols, outputs. rewrite map_map. reflexivity. Qed.

(** With its four globals bound, [ode_system] returns, for every batch,
    the velocity output itself and the acceleration solved from the
    equation of motion. *)
Lemma ode_system_batch (g : namespace) (m c k : R) (f f' : R -> R)
    (l : list sample) :
  load_scalar g "c" = Ok c ->
  load_scalar g "k" = Ok k ->
  load g "F" = Ok (VForce f f') ->
  load_scalar g "m" = Ok m ->
  ode_system g (times l) (outputs l)
  = Ok [ map (fun s => [s_v s]) l; map (fun s => [accel m c k f f' s]) l ].
Proof.
  intros Hc Hk HF Hm. unfold ode_system.
  rewrite Hc, Hk, HF, Hm, slice_x, slice_v. cbn [bind call1].
  unfold scale, tsub, tadd, tapply, times, div_scalar.
  rewrite !map_map. cbn [map].
  rewrite (elementwise_columns dsub). cbn [bind].
  rewrite (elementwise_columns dadd). cbn [bind].
  rewrite map_map. reflexivity.
Qed.

Lemma ode_system_values (g : namespace) (m c k : R) (f f' : R -> R)
    (l : list sample) :
  load_scalar g "c" = Ok c ->
  load_scalar g "k" = Ok k ->
  load g "F" = Ok (VForce f f') ->
  load_scalar g "m" = Ok m ->
  rmap (map values) (ode_system g (times l) (outputs l))
  = Ok [ map (fun s => [primal (s_v s)]) l;
         map (fun s => [(- c * primal (s_v s) - k * primal (s_x s)
                         + f (primal (s_t s))) / m]%R) l ].
Proof.
  intros Hc Hk HF Hm.
  rewrite (ode_system_batch g m c k f f' l Hc Hk HF Hm).
  cbn. unfold values. rewrite !map_map. reflexivity.
Qed.


Lemma oscillator_values (l : list sample) :
  rmap (map values) (ode_system oscillator (times l) (outputs l))
  = Ok [ map (fun s => [primal (s_v s)]) l;
         map (fun s => [(- (1 / 5) * primal (s_v s) - 1 * primal (s_x s)
                         + 0) / 1]%R) l ].
Proof.
  apply (ode_system_values oscillator 1 (1 / 5) 1 (fun _ => 0%R) (fun _ => 0%R));
    reflexivity.
Qed.


(** ** Values and derivatives *)

Lemma values_slice (lo hi : nat) (a : tensor) :
  values (slice_cols lo hi a)
  = map (fun row => take (hi - lo) (drop lo row)) (values a).
Proof.
  unfold values, slice_cols. rewrite !map_map.
  apply map_ext. intros row. rewrite <- firstn_map, <- skipn_map. reflexivity.
Qed.

Lemma values_scale (s : R) (a : tensor) :
  values (scale s a) = map (map (Rmult s)) (values a).
Proof. unfold values, scale. rewrite !map_map. apply map_ext. intros row.
  rewrite !map_map. reflexivity. Qed.

Lemma values_div_scalar (a : tensor) (s : R) :
  values (div_scalar a s) = map (map (fun r => r / s)%R) (values a).
Proof. unfold values, div_scalar. rewrite !map_map. apply map_ext. intros row.
  rewrite !map_map. reflexivity. Qed.

Lemma values_tapply (f f' : R -> R) (a : tensor) :
  values (tapply f f' a) = map (map f) (values a).
Proof. unfold values, tapply. rewrite !map_map. apply map_ext. intros row.
  rewrite !map_map. reflexivity. Qed.

(** Two elementwise results on operands with equal values: the same
    exception, or tensors with equal values. *)
Lemma elementwise_same_values (f : dual -> dual -> dual) (fR : R -> R -> R)
    (a a' b b' : tensor) :
  (forall p q, primal (f p q) = fR (primal p) (primal q)) ->
  values a = values a' -> values b = values b' ->
  rmap values (elementwise f a b) = rmap values (elementwise f a' b').
Proof.
  intros H Ha Hb.
  rewrite !(elementwise_values f fR H), Ha, Hb. reflexivity.
Qed.

Lemma same_values_cases (r r' : result tensor) :
  rmap values r = rmap values r' ->
  (exists e, r = Err e /\ r' = Err e) \/
  (exists a a', r = Ok a /\ r' = Ok a' /\ values a = values a').
Proof.
  destruct r as [a|e]; cbn; intros H; symmetry in H.
  - apply rmap_Ok_inv in H as (a' & -> & Ha'). right. eauto.
  - apply rmap_Err_inv in H as ->. left. eauto.
Qed.

(** ** Loading names *)

Lemma load_Some (g : namespace) (n : string) (v : value) :
  g !! n = Some v -> load g n = Ok v.
Proof. unfold load. intros ->. reflexivity. Qed.

Lemma load_None (g : namespace) (n : string) :
  g !! n = None -> load g n = Err (NameError n).
Proof. unfold load. intros ->. reflexivity. Qed.

Lemma load_insert_ne (g : namespace) (x n : string) (v : value) :
  x <> n -> load (<[x := v]> g) n = load g n.
Proof. intros H. unfold load. rewrite lookup_insert_ne by exact H. reflexivity. Qed.

Lemma load_module_ok (g : namespace) (n : string) :
  g !! n = Some VModule -> load_module g n = Ok tt.
Proof. intros H. unfold load_module. rewrite (load_Some _ _ _ H). reflexivity. Qed.

Lemma load_geom_ok (g : namespace) (n : string) (d : TimeDomain) :
  g !! n = Some (VGeom d) -> load_geom g n = Ok d.
Proof. intros H. unfold load_geom. rewrite (load_Some _ _ _ H). reflexivity. Qed.

Lemma load_ic_ok (g : namespace) (n : string) (i : IC) :
  g !! n = Some (VIC i) -> load_ic g n = Ok i.
Proof. intros H. unfold load_ic. rewrite (load_Some _ _ _ H). reflexivity. Qed.

Lemma load_fun_ok (g : namespace) (n : string) (f : pyfun) :
  g !! n = Some (VFun f) -> load_fun g n = Ok f.
Proof. intros H. unfold load_fun. rewrite (load_Some _ _ _ H). reflexivity. Qed.

(** ** Which names the notebook binds *)

Lemma exec_stmt_other (s : stmt) (g g' : namespace) (n : string) :
  n ∉ targets s -> exec_stmt s g = Ok g' -> g' !! n = g !! n.
Proof.
  intros Hn. destruct s as [x f|x [e|]|x y e|e]; cbn in *.
  - intros [= <-]. apply lookup_insert_ne. intros ->. apply Hn. left.
  - destruct (e g); cbn; intros [= <-].
    apply lookup_insert_ne. intros ->. apply Hn. left.
  - discriminate.
  - destruct (e g); cbn; intros [= <-].
    rewrite !lookup_insert_ne; [reflexivity| |].
    + intros ->. apply Hn. left.
    + intros ->. apply Hn. right. left.
  - destruct (e g); cbn; intros [= <-]. reflexivity.
Qed.

Lemma exec_other (c : cell) (g : namespace) (n : string) :
  n ∉ cell_targets c -> (exec c g).1 !! n = g !! n.
Proof.
  revert g. induction c as [|s c IH]; intros g Hn; cbn; [reflexivity|].
  unfold cell_targets in Hn. cbn in Hn.
  rewrite elem_of_app in Hn.
  destruct (exec_stmt s g) as [g'|e] eqn:Hs; cbn; [|reflexivity].
  rewrite IH by (intros H; apply Hn; right; exact H).
  apply (exec_stmt_other s g g' n); [|exact Hs].
  intros H. apply Hn. left. exact H.
Qed.

Lemma run_cell_other (c : cell) (g : namespace) (n : string) :
  n ∉ cell_binds c -> (run_cell c g).1 !! n = g !! n.
Proof.
  unfold cell_binds, run_cell. destruct (compiles c); intros Hn.
  - apply exec_other, Hn.
  - reflexivity.
Qed.

Lemma bound_names_eq :
  bound_names
  = [ "ode_system"; "ic1"; "ic2"; "data"; "net"; "model"; "losshistory";
      "train_state" ].
Proof. reflexivity. Qed.

(** Whatever cells are run, and in whatever order, only the names in
    [bound_names] are ever bound. *)
Lemma reachable_unbound (g : namespace) (n : string) :
  reachable g -> n ∉ bound_names -> g !! n = None.
Proof.
  intros Hg Hn. induction Hg as [|g c Hg IH Hc].
  - apply lookup_empty.
  - rewrite run_cell_other; [exact IH|].
    intros Hin. apply Hn. unfold bound_names.
    apply list_elem_of_In, in_concat. exists (cell_binds c). split.
    + apply in_map, list_elem_of_In, Hc.
    + apply list_elem_of_In, Hin.
Qed.

(** No run of the notebook's cells ever binds a time horizon or a
    geometry. *)
Lemma reachable_no_time_domain (g : namespace) :
  reachable g -> g !! "T" = None /\ g !! "geom" = None.
Proof.
  intros Hg. split; apply reachable_unbound; try exact Hg;
    rewrite bound_names_eq; not_bound.
Qed.

(** The framework is never imported: in whatever namespace the
    notebook's cells produce, the cells that call it raise [NameError]
    for [dde]. *)
Lemma reachable_no_import (g : namespace) :
  reachable g ->
  run_cell cell_ic g = (g, Some (NameError "dde"))
  /\ run_cell cell_data g = (g, Some (NameError "dde"))
  /\ run_cell cell_net g = (g, Some (NameError "dde")).
Proof.
  intros Hg.
  assert (Hd : g !! "dde" = None)
    by (apply reachable_unbound; [exact Hg | rewrite bound_names_eq; not_bound]).
  unfold run_cell, cell_ic, cell_data, cell_net.
  cbn [compiles forallb well_formed andb exec exec_stmt].
  unfold load_module. rewrite (load_None g "dde" Hd). cbn [bind].
  repeat split.
Qed.

(** * Properties of the notebook *)

(** C1.  The specification has [ode_system] return the residuals
    r1 = dx/dt - v and r2 = m dv/dt + c v + k x - F(t).  The code
    returns the velocity and the acceleration instead: at the initial
    state of the unforced oscillator (m = 1, c = 1/5, k = 1, F = 0,
    x = 0, v = 1, moving as the equation prescribes) it returns 1 and
    -1/5, where both residuals are 0. *)
Theorem ode_system_returns_rates_not_residuals :
  rmap (map values)
       (ode_system oscillator (times [s_initial]) (outputs [s_initial]))
  = Ok [ [[1%R]]; [[(- (1 / 5))%R]] ]
  /\ residual_spec 1 (1 / 5) 1 (fun _ => 0%R) [s_initial]
     = [ [[0%R]]; [[0%R]] ].
Proof.
  split.
  - rewrite oscillator_values. cbn. repeat f_equal. lra.
  - unfold residual_spec. cbn. repeat f_equal; lra.
Qed.

(** C2.  The specification has the returned value vanish exactly when
    the outputs satisfy the governing equation.  The code fails both
    directions for the unforced oscillator: at [s_initial] the equation
    holds and the returned value is not zero; at [s_moving] every
    returned entry is zero and the equation does not hold. *)
Theorem ode_system_zero_is_not_the_equation :
  (governing_eq 1 (1 / 5) 1 (fun _ => 0%R) s_initial /\
   exists out,
     rmap (map values)
          (ode_system oscillator (times [s_initial]) (outputs [s_initial]))
     = Ok out /\ ~ all_zero out)
  /\
  (~ governing_eq 1 (1 / 5) 1 (fun _ => 0%R) s_moving /\
   exists out,
     rmap (map values)
          (ode_system oscillator (times [s_moving]) (outputs [s_moving]))
     = Ok out /\ all_zero out).
Proof.
  split; split.
  - unfold governing_eq. cbn. split; lra.
  - eexists. split; [apply oscillator_values|].
    unfold all_zero. cbn. intros H.
    apply Forall_cons in H as [H _].
    apply Forall_cons in H as [H _].
    apply Forall_cons in H as [H _]. lra.
  - unfold governing_eq. cbn. intros [H _]. lra.
  - eexists. split; [apply oscillator_values|].
    unfold all_zero. cbn.
    repeat (apply Forall_cons; split); try apply Forall_nil; lra.
Qed.

(** C3.  The code performs no automatic differentiation: the values
    that [ode_system] returns (or the exception it raises) are fixed by
    the values of [t] and [y]; the derivatives that the tensors carry
    do not enter them. *)
Theorem ode_system_ignores_derivatives (g : namespace) (t t' y y' : tensor) :
  values t = values t' -> values y = values y' ->
  rmap (map values) (ode_system g t y)
  = rmap (map values) (ode_system g t' y').
Proof.
  intros Ht Hy. unfold ode_system.
  assert (Hx : values (slice_cols 0 1 y) = values (slice_cols 0 1 y'))
    by (rewrite !values_slice, Hy; reflexivity).
  assert (Hv : values (slice_cols 1 2 y) = values (slice_cols 1 2 y'))
    by (rewrite !values_slice, Hy; reflexivity).
  destruct (load_scalar g "c") as [c|e]; cbn [bind rmap]; [|reflexivity].
  destruct (load_scalar g "k") as [k|e]; cbn [bind rmap]; [|reflexivity].
  assert (Hsub : rmap values (tsub (scale (- c) (slice_cols 1 2 y))
                                   (scale k (slice_cols 0 1 y)))
               = rmap values (tsub (scale (- c) (slice_cols 1 2 y'))
                                   (scale k (slice_cols 0 1 y')))).
  { apply (elementwise_same_values dsub Rminus); [reflexivity| |];
      rewrite !values_scale; congruence. }
  apply same_values_cases in Hsub
    as [(e & -> & ->)|(lhs & lhs' & -> & -> & Hlhs)];
    cbn [bind rmap]; [reflexivity|].
  destruct (load g "F") as [F|e]; cbn [bind rmap]; [|reflexivity].
  destruct F; cbn [call1 bind rmap]; try reflexivity.
  assert (Hadd : rmap values (tadd lhs (tapply f f' t))
               = rmap values (tadd lhs' (tapply f f' t'))).
  { apply (elementwise_same_values dadd Rplus); [reflexivity|assumption|].
    rewrite !values_tapply. congruence. }
  apply same_values_cases in Hadd
    as [(e & -> & ->)|(num & num' & -> & -> & Hnum)];
    cbn [bind rmap]; [reflexivity|].
  destruct (load_scalar g "m") as [m|e]; cbn [bind rmap]; [|reflexivity].
  cbn [map]. rewrite !values_div_scalar, Hv, Hnum. reflexivity.
Qed.

Lemma ode_system_ignores_derivatives_witness :
  values (times [s_initial]) = values (times [s_steep]) /\
  values (outputs [s_initial]) = values (outputs [s_steep]) /\
  derivs (outputs [s_initial]) <> derivs (outputs [s_steep]) /\
  rmap (map values)
       (ode_system oscillator (times [s_initial]) (outputs [s_initial]))
  = rmap (map values)
         (ode_system oscillator (times [s_steep]) (outputs [s_steep])).
Proof.
  split; [reflexivity|]. split; [reflexivity|]. split.
  - cbn. intros [= H _]. lra.
  - apply ode_system_ignores_derivatives; reflexivity.
Defined.

(** C4.  [ode_system] reads the globals [c], [k], [F] and [m]; no cell
    of the notebook binds any of them.  In every namespace that running
    the notebook's cells can produce, all four are unbound and a call
    of [ode_system] raises [NameError] for [c], whatever its arguments. *)
Theorem ode_system_globals_undefined (g : namespace) (t y : tensor) :
  reachable g ->
  g !! "c" = None /\ g !! "k" = None /\ g !! "F" = None /\ g !! "m" = None
  /\ ode_system g t y = Err (NameError "c").
Proof.
  intros Hg.
  assert (Hc : g !! "c" = None)
    by (apply reachable_unbound; [exact Hg | rewrite bound_names_eq; not_bound]).
  repeat split; try exact Hc;
    try (apply reachable_unbound; [exact Hg | rewrite bound_names_eq; not_bound]).
  unfold ode_system, load_scalar. rewrite (load_None g "c" Hc). reflexivity.
Qed.

Lemma ode_system_globals_undefined_witness :
  reachable (run_cell cell_ode ∅).1 /\
  (run_cell cell_ode ∅).1 !! "ode_system" = Some (VFun ode_system_fn) /\
  ode_system (run_cell cell_ode ∅).1
             (times [s_initial]) (outputs [s_initial])
  = Err (NameError "c").
Proof.
  assert (H : reachable (run_cell cell_ode ∅).1).
  { apply reach_run; [apply reach_fresh|].
    unfold notebook. apply elem_of_cons. right. apply elem_of_cons. left.
    reflexivity. }
  split; [exact H|]. split; [reflexivity|].
  apply (ode_system_globals_undefined _ _ _ H).
Defined.

(** C5.  The geometry cell begins with [T =], an assignment without a
    right-hand side.  The cell does not compile: run from any
    namespace it raises [SyntaxError] and binds nothing, so neither [T]
    nor [geom] comes to exist; and "Run All", from any namespace, stops
    at that cell with only [ode_system] bound. *)
Theorem time_horizon_unset :
  cell_geometry !! 0%nat = Some (Assign "T" None)
  /\ (forall g, run_cell cell_geometry g = (g, Some SyntaxError))
  /\ (forall g, run_all notebook g
                = (<["ode_system" := VFun ode_system_fn]> g, Some SyntaxError)).
Proof.
  split; [reflexivity|]. split; intros g; reflexivity.
Qed.

(** C6.  Where the framework is imported and a geometry is bound, the
    initial-condition cell binds [ic1] and [ic2]; [ic1] constrains
    component 0 with a target function that is 0 for every input, [ic2]
    constrains component 1 with a target function that is 1 for every
    input. *)
Theorem initial_condition_targets (g : namespace) (geom : TimeDomain) :
  g !! "dde" = Some VModule ->
  g !! "geom" = Some (VGeom geom) ->
  exists i1 i2,
    run_cell cell_ic g = (<["ic2" := VIC i2]> (<["ic1" := VIC i1]> g), None)
    /\ ic_component i1 = 0%Z /\ (forall t, ic_func i1 t = 0%Z)
    /\ ic_component i2 = 1%Z /\ (forall t, ic_func i2 t = 1%Z).
Proof.
  intros Hdde Hgeom. do 2 eexists. split.
  - unfold run_cell, cell_ic.
    cbn [compiles forallb well_formed andb exec exec_stmt].
    rewrite (load_module_ok g "dde" Hdde), (load_geom_ok g "geom" geom Hgeom).
    cbn [bind]. unfold load_module, load_geom.
    rewrite !load_insert_ne by discriminate.
    rewrite (load_Some g "dde" _ Hdde), (load_Some g "geom" _ Hgeom).
    cbn [bind]. reflexivity.
  - cbn. repeat split.
Qed.

Lemma initial_condition_targets_witness :
  with_geom !! "dde" = Some VModule /\
  with_geom !! "geom" = Some (VGeom {| t0 := 0; t1 := 20 |}) /\
  exists i1 i2,
    run_cell cell_ic with_geom
    = (<["ic2" := VIC i2]> (<["ic1" := VIC i1]> with_geom), None)
    /\ ic_component i1 = 0%Z /\ (forall t, ic_func i1 t = 0%Z)
    /\ ic_component i2 = 1%Z /\ (forall t, ic_func i2 t = 1%Z).
Proof.
  split; [reflexivity|]. split; [reflexivity|].
  apply (initial_condition_targets with_geom {| t0 := 0; t1 := 20 |});
    reflexivity.
Defined.

(** C7.  Where the framework is imported, the network cell binds [net]
    to a feed-forward network with layer sizes 1, 50, 50, 50, 2, the
    activation "tanh" and the initializer "Glorot uniform". *)
Theorem network_shape (g : namespace) :
  g !! "dde" = Some VModule ->
  exists n,
    run_cell cell_net g = (<["net" := VNet n]> g, None)
    /\ layer_sizes n = [1; 50; 50; 50; 2]%Z
    /\ activation n = "tanh"
    /\ kernel_initializer n = "Glorot uniform".
Proof.
  intros Hdde. eexists. split.
  - unfold run_cell, cell_net.
    cbn [compiles forallb well_formed andb exec exec_stmt].
    rewrite (load_module_ok g "dde" Hdde). cbn [bind]. reflexivity.
  - cbn. repeat split.
Qed.

Lemma network_shape_witness :
  with_geom !! "dde" = Some VModule /\
  exists n,
    run_cell cell_net with_geom = (<["net" := VNet n]> with_geom, None)
    /\ layer_sizes n = [1; 50; 50; 50; 2]%Z
    /\ activation n = "tanh"
    /\ kernel_initializer n = "Glorot uniform".
Proof.
  split; [reflexivity|]. apply (network_shape with_geom). reflexivity.
Defined.

(** C8.  Where the framework is imported and the geometry, the residual
    function and the two initial conditions are bound, the data cell
    binds [data] to a problem over them with 1000 domain points and 2
    boundary points. *)
Theorem data_point_counts (g : namespace) (geom : TimeDomain) (pde : pyfun)
    (i1 i2 : IC) :
  g !! "dde" = Some VModule ->
  g !! "geom" = Some (VGeom geom) ->
  g !! "ode_system" = Some (VFun pde) ->
  g !! "ic1" = Some (VIC i1) ->
  g !! "ic2" = Some (VIC i2) ->
  exists d,
    run_cell cell_data g = (<["data" := VData d]> g, None)
    /\ num_domain d = 1000%Z /\ num_boundary d = 2%Z
    /\ pde_geom d = geom /\ pde_fn d = pde /\ pde_bcs d = [i1; i2].
Proof.
  intros Hdde Hgeom Hpde H1 H2. eexists. split.
  - unfold run_cell, cell_data.
    cbn [compiles forallb well_formed andb exec exec_stmt].
    rewrite (load_module_ok g "dde" Hdde), (load_geom_ok g "geom" geom Hgeom),
      (load_fun_ok g "ode_system" pde Hpde), (load_ic_ok g "ic1" i1 H1),
      (load_ic_ok g "ic2" i2 H2).
    cbn [bind]. reflexivity.
  - cbn. repeat split.
Qed.

Lemma data_point_counts_witness :
  with_ics !! "dde" = Some VModule /\
  with_ics !! "ode_system" = Some (VFun ode_system_fn) /\
  exists d,
    run_cell cell_data with_ics = (<["data" := VData d]> with_ics, None)
    /\ num_domain d = 1000%Z /\ num_boundary d = 2%Z
    /\ pde_geom d = {| t0 := 0; t1 := 20 |} /\ pde_fn d = ode_system_fn
    /\ length (pde_bcs d) = 2%nat.
Proof.
  split; [reflexivity|]. split; [reflexivity|].
  destruct (data_point_counts with_ics {| t0 := 0; t1 := 20 |} ode_system_fn
              _ _ eq_refl eq_refl eq_refl eq_refl eq_refl)
    as (d & Hrun & Hn & Hb & Hg & Hf & Hbcs).
  exists d. rewrite Hbcs. repeat split; assumption.
Defined.

(** C10.  Where the framework is imported and a geometry is bound, both
    initial conditions are built with a predicate that returns the
    framework's mark for the point unchanged; the framework therefore
    applies both to the same points of any array, namely the points
    that the geometry marks as initial. *)
Theorem initial_conditions_same_points (g : namespace) (geom : TimeDomain) :
  g !! "dde" = Some VModule ->
  g !! "geom" = Some (VGeom geom) ->
  exists i1 i2,
    run_cell cell_ic g = (<["ic2" := VIC i2]> (<["ic1" := VIC i1]> g), None)
    /\ (forall x on_initial, ic_on_initial i1 x on_initial = on_initial)
    /\ (forall x on_initial, ic_on_initial i2 x on_initial = on_initial)
    /\ (forall x on_initial,
          ic_on_initial i1 x on_initial = ic_on_initial i2 x on_initial)
    /\ (forall mark X,
          ic_filter mark i1 X = List.filter mark X
          /\ ic_filter mark i2 X = List.filter mark X).
Proof.
  intros Hdde Hgeom. do 2 eexists. split.
  - unfold run_cell, cell_ic.
    cbn [compiles forallb well_formed andb exec exec_stmt].
    rewrite (load_module_ok g "dde" Hdde), (load_geom_ok g "geom" geom Hgeom).
    cbn [bind]. unfold load_module, load_geom.
    rewrite !load_insert_ne by discriminate.
    rewrite (load_Some g "dde" _ Hdde), (load_Some g "geom" _ Hgeom).
    cbn [bind]. reflexivity.
  - cbn. repeat split.
Qed.

Lemma initial_conditions_same_points_witness :
  with_geom !! "dde" = Some VModule /\
  with_geom !! "geom" = Some (VGeom {| t0 := 0; t1 := 20 |}) /\
  exists i1 i2,
    run_cell cell_ic with_geom
    = (<["ic2" := VIC i2]> (<["ic1" := VIC i1]> with_geom), None)
    /\ ic_filter (at_time 0) i1 [[0%R]; [20%R]]
       = ic_filter (at_time 0) i2 [[0%R]; [20%R]].
Proof.
  split; [reflexivity|]. split; [reflexivity|].
  destruct (initial_conditions_same_points with_geom {| t0 := 0; t1 := 20 |}
              eq_refl eq_refl) as (i1 & i2 & Hrun & _ & _ & _ & Hsel).
  exists i1, i2. split; [exact Hrun|].
  destruct (Hsel (at_time 0) [[0%R]; [20%R]]) as [-> ->].
  reflexivity.
Defined.

(** * Further properties of [ode_system] *)

















(** * Further properties of the notebook's cells *)

Lemma in_notebook (c : cell) :
  c ∈ notebook ->
  c = cell_deepxde \/ c = cell_ode \/ c = cell_geometry \/ c = cell_ic
  \/ c = cell_data \/ c = cell_net \/ c = cell_train \/ c = cell_plot.
Proof.
  unfold notebook. intros H.
  repeat (apply elem_of_cons in H as [H|H]; [tauto|]).
  apply elem_of_nil in H. destruct H.
Qed.

(** X7.  From a fresh kernel the notebook can only ever define
    [ode_system]: whatever cells are run, in whatever order, the
    namespace is empty or holds that one function, and each of the six
    cells after the definition raises an exception and binds nothing. *)
Theorem fresh_kernel_namespaces (g : namespace) :
  reachable g ->
  (g = ∅ \/ g = <["ode_system" := VFun ode_system_fn]> ∅)
  /\ forall c,
       c ∈ [cell_geometry; cell_ic; cell_data; cell_net; cell_train;
            cell_plot] ->
       exists e, run_cell c g = (g, Some e).
Proof.
  intros Hg.
  assert (Hcases : g = ∅ \/ g = <["ode_system" := VFun ode_system_fn]> ∅).
  { induction Hg as [|g c Hg IH Hc]; [left; reflexivity|].
    apply in_notebook in Hc.
    destruct IH as [-> | ->];
      destruct Hc as [->|[->|[->|[->|[->|[->|[->| ->]]]]]]];
      first [left; reflexivity | right; reflexivity]. }
  split; [exact Hcases|].
  intros c Hc.
  repeat (apply elem_of_cons in Hc as [->|Hc];
          [destruct Hcases as [-> | ->]; eexists; reflexivity|]).
  apply elem_of_nil in Hc. destruct Hc.
Qed.

Lemma fresh_kernel_namespaces_witness :
  reachable (run_cell cell_ode ∅).1 /\
  exists e,
    run_cell cell_net (run_cell cell_ode ∅).1
    = ((run_cell cell_ode ∅).1, Some e).
Proof.
  assert (H : reachable (run_cell cell_ode ∅).1).
  { apply reach_run; [apply reach_fresh|].
    unfold notebook. apply elem_of_cons. right. apply elem_of_cons. left.
    reflexivity. }
  split; [exact H|].
  destruct (fresh_kernel_namespaces _ H) as [_ Hfail].
  apply Hfail. do 3 (apply elem_of_cons; right). apply elem_of_cons. left.
  reflexivity.
Defined.

Lemma run_cell_ic_blocked (g : namespace) :
  g !! "geom" = None -> exists e, run_cell cell_ic g = (g, Some e).
Proof.
  intros Hgeom. unfold run_cell, cell_ic.
  cbn [compiles forallb well_formed andb exec exec_stmt].
  unfold load_geom. rewrite (load_None g "geom" Hgeom).
  destruct (load_module g "dde"); cbn [bind]; eexists; reflexivity.
Qed.

Lemma run_cell_data_blocked (g : namespace) :
  g !! "geom" = None -> exists e, run_cell cell_data g = (g, Some e).
Proof.
  intros Hgeom. unfold run_cell, cell_data.
  cbn [compiles forallb well_formed andb exec exec_stmt].
  unfold load_geom. rewrite (load_None g "geom" Hgeom).
  destruct (load_module g "dde"); cbn [bind]; eexists; reflexivity.
Qed.

Lemma run_cell_train_blocked (g : namespace) :
  g !! "data" = None -> exists e, run_cell cell_train g = (g, Some e).
Proof.
  intros Hdata. unfold run_cell, cell_train.
  cbn [compiles forallb well_formed andb exec exec_stmt].
  unfold load_data. rewrite (load_None g "data" Hdata).
  destruct (load_module g "dde"); cbn [bind]; eexists; reflexivity.
Qed.

Lemma unbound_in_run_other (g : namespace) (c : cell) (names : list string) :
  unbound_in g names ->
  (forall n, n ∈ names -> n ∉ cell_binds c) ->
  unbound_in (run_cell c g).1 names.
Proof.
  intros Hg Hc n Hn. rewrite run_cell_other; [apply Hg, Hn | apply Hc, Hn].
Qed.

(** X8.  The missing time horizon blocks everything downstream of it,
    also once the framework is imported.  From any namespace in which
    [T], [geom], [ic1], [ic2], [data], [model], [losshistory] and
    [train_state] are unbound, no run of the notebook's cells binds any
    of them: the geometry cell does not compile, so the cells that
    build the initial conditions, the data object and the model raise
    an exception and bind nothing. *)
Theorem time_horizon_blocks_pipeline (g0 g : namespace) :
  runs_from g0 g ->
  unbound_in g0 downstream ->
  unbound_in g downstream
  /\ run_cell cell_geometry g = (g, Some SyntaxError)
  /\ (exists e, run_cell cell_ic g = (g, Some e))
  /\ (exists e, run_cell cell_data g = (g, Some e))
  /\ (exists e, run_cell cell_train g = (g, Some e)).
Proof.
  intros Hruns H0.
  assert (Hg : unbound_in g downstream).
  { induction Hruns as [|g c Hruns IH Hc]; [exact H0|].
    assert (Hgeom : g !! "geom" = None)
      by (apply IH; unfold downstream; do 1 (apply elem_of_cons; right);
          apply elem_of_cons; left; reflexivity).
    assert (Hdata : g !! "data" = None)
      by (apply IH; unfold downstream; do 4 (apply elem_of_cons; right);
          apply elem_of_cons; left; reflexivity).
    apply in_notebook in Hc.
    destruct Hc as [->|[->|[->|[->|[->|[->|[->| ->]]]]]]].
    - exact IH.
    - apply unbound_in_run_other; [exact IH|].
      intros n Hn Hin. apply list_elem_of_singleton in Hin. subst n.
      revert Hn. unfold downstream. not_bound.
    - exact IH.
    - destruct (run_cell_ic_blocked g Hgeom) as [e ->]. exact IH.
    - destruct (run_cell_data_blocked g Hgeom) as [e ->]. exact IH.
    - apply unbound_in_run_other; [exact IH|].
      intros n Hn Hin. apply list_elem_of_singleton in Hin. subst n.
      revert Hn. unfold downstream. not_bound.
    - destruct (run_cell_train_blocked g Hdata) as [e ->]. exact IH.
    - apply unbound_in_run_other; [exact IH|].
      intros n Hn Hin. apply elem_of_nil in Hin. exact Hin. }
  split; [exact Hg|]. split; [reflexivity|].
  assert (Hgeom : g !! "geom" = None)
    by (apply Hg; unfold downstream; do 1 (apply elem_of_cons; right);
        apply elem_of_cons; left; reflexivity).
  assert (Hdata : g !! "data" = None)
    by (apply Hg; unfold downstream; do 4 (apply elem_of_cons; right);
        apply elem_of_cons; left; reflexivity).
  split; [apply run_cell_ic_blocked, Hgeom|].
  split; [apply run_cell_data_blocked, Hgeom|].
  apply run_cell_train_blocked, Hdata.
Qed.

Lemma time_horizon_blocks_pipeline_witness :
  runs_from imported (run_cell cell_net imported).1
  /\ unbound_in imported downstream
  /\ is_Some ((run_cell cell_net imported).1 !! "net")
  /\ unbound_in (run_cell cell_net imported).1 downstream
  /\ exists e,
       run_cell cell_ic (run_cell cell_net imported).1
       = ((run_cell cell_net imported).1, Some e).
Proof.
  assert (Hruns : runs_from imported (run_cell cell_net imported).1).
  { apply runs_step; [apply runs_start|].
    unfold notebook. do 5 (apply elem_of_cons; right).
    apply elem_of_cons. left. reflexivity. }
  assert (H0 : unbound_in imported downstream).
  { intros n Hn. unfold downstream in Hn.
    repeat (apply elem_of_cons in Hn as [->|Hn]; [reflexivity|]).
    apply elem_of_nil in Hn. destruct Hn. }
  split; [exact Hruns|]. split; [exact H0|].
  split; [eexists; reflexivity|].
  destruct (time_horizon_blocks_pipeline _ _ Hruns H0)
    as (Hg & _ & Hic & _ & _).
  split; [exact Hg | exact Hic].
Defined.

Lemma run_cell_ode_eq (g : namespace) :
  run_cell cell_ode g = (<["ode_system" := VFun ode_system_fn]> g, None).
Proof. reflexivity. Qed.

Lemma run_cell_ic_eq (g : namespace) (geom : TimeDomain) :
  g !! "dde" = Some VModule ->
  g !! "geom" = Some (VGeom geom) ->
  run_cell cell_ic g
  = (<["ic2" := VIC {| ic_geom := geom;
                       ic_func := fun t => 1%Z;
                       ic_on_initial := fun _ on_initial => on_initial;
                       ic_component := 1 |}]>
     (<["ic1" := VIC {| ic_geom := geom;
                        ic_func := fun t => 0%Z;
                        ic_on_initial := fun _ on_initial => on_initial;
                        ic_component := 0 |}]> g), None).
Proof.
  intros Hdde Hgeom. unfold run_cell, cell_ic.
  cbn [compiles forallb well_formed andb exec exec_stmt].
  rewrite (load_module_ok g "dde" Hdde), (load_geom_ok g "geom" geom Hgeom).
  cbn [bind]. unfold load_module, load_geom.
  rewrite !load_insert_ne by discriminate.
  rewrite (load_Some g "dde" _ Hdde), (load_Some g "geom" _ Hgeom).
  reflexivity.
Qed.

Lemma run_cell_data_eq (g : namespace) (geom : TimeDomain) (pde : pyfun)
    (i1 i2 : IC) :
  g !! "dde" = Some VModule ->
  g !! "geom" = Some (VGeom geom) ->
  g !! "ode_system" = Some (VFun pde) ->
  g !! "ic1" = Some (VIC i1) ->
  g !! "ic2" = Some (VIC i2) ->
  run_cell cell_data g
  = (<["data" := VData {| pde_geom := geom; pde_fn := pde;
                          pde_bcs := [i1; i2];
                          num_domain := 1000; num_boundary := 2 |}]> g,
     None).
Proof.
  intros Hdde Hgeom Hpde H1 H2. unfold run_cell, cell_data.
  cbn [compiles forallb well_formed andb exec exec_stmt].
  rewrite (load_module_ok g "dde" Hdde), (load_geom_ok g "geom" geom Hgeom),
    (load_fun_ok g "ode_system" pde Hpde), (load_ic_ok g "ic1" i1 H1),
    (load_ic_ok g "ic2" i2 H2).
  reflexivity.
Qed.

(** X9.  How the cells compose once the framework is imported and a
    time domain is bound: running the definition of [ode_system], the
    initial-condition cell and the data cell in that order raises
    nothing and binds [data] to a problem whose residual function is
    [ode_system], whose constraints are [ic1] and [ic2] in that order
    (components 0 and 1), and whose geometry is the very time domain
    that both constraints hold; the bindings of [dde] and [geom] are
    left as they were. *)
Theorem pipeline_builds_data (g : namespace) (geom : TimeDomain) :
  g !! "dde" = Some VModule ->
  g !! "geom" = Some (VGeom geom) ->
  exists g' d i1 i2,
    run_all [cell_ode; cell_ic; cell_data] g = (g', None)
    /\ g' !! "data" = Some (VData d)
    /\ g' !! "ode_system" = Some (VFun (pde_fn d))
    /\ pde_fn d = ode_system_fn
    /\ g' !! "ic1" = Some (VIC i1) /\ g' !! "ic2" = Some (VIC i2)
    /\ pde_bcs d = [i1; i2]
    /\ ic_component i1 = 0%Z /\ ic_component i2 = 1%Z
    /\ pde_geom d = geom /\ ic_geom i1 = geom /\ ic_geom i2 = geom
    /\ g' !! "dde" = Some VModule /\ g' !! "geom" = Some (VGeom geom).
Proof.
  intros Hdde Hgeom. do 4 eexists. split.
  - cbn [run_all]. rewrite run_cell_ode_eq.
    rewrite (run_cell_ic_eq _ geom)
      by (rewrite lookup_insert_ne by discriminate; assumption).
    erewrite (run_cell_data_eq _ geom ode_system_fn).
    + reflexivity.
    + rewrite !lookup_insert_ne by discriminate. exact Hdde.
    + rewrite !lookup_insert_ne by discriminate. exact Hgeom.
    + rewrite !lookup_insert_ne by discriminate. apply lookup_insert_eq.
    + rewrite lookup_insert_ne by discriminate. apply lookup_insert_eq.
    + apply lookup_insert_eq.
  - split; [apply lookup_insert_eq|].
    split; [rewrite !lookup_insert_ne by discriminate; apply lookup_insert_eq|].
    split; [reflexivity|].
    split; [rewrite !lookup_insert_ne by discriminate; apply lookup_insert_eq|].
    split; [rewrite lookup_insert_ne by discriminate; apply lookup_insert_eq|].
    do 6 (split; [reflexivity|]).
    rewrite !lookup_insert_ne by discriminate. split; assumption.
Qed.

Lemma pipeline_builds_data_witness :
  with_geom !! "dde" = Some VModule /\
  with_geom !! "geom" = Some (VGeom {| t0 := 0; t1 := 20 |}) /\
  exists g' d,
    run_all [cell_ode; cell_ic; cell_data] with_geom = (g', None)
    /\ g' !! "data" = Some (VData d)
    /\ map ic_component (pde_bcs d) = [0; 1]%Z
    /\ pde_geom d = {| t0 := 0; t1 := 20 |}.
Proof.
  split; [reflexivity|]. split; [reflexivity|].
  destruct (pipeline_builds_data with_geom {| t0 := 0; t1 := 20 |}
              eq_refl eq_refl)
    as (g' & d & i1 & i2 & Hrun & Hd & _ & _ & _ & _ & Hb & H1 & H2 & Hg & _).
  exists g', d. rewrite Hb. cbn [map]. rewrite H1, H2.
  repeat split; assumption.
Defined.
